(** * Mi Heater integration: a shallow embedding of the setup probe, the
      polling hook and the two write commands.

    Sources embedded here:
      - custom_components/miheater/__init__.py   (module [Integration])
      - custom_components/miheater/climate.py    (module [Climate])

    The integration is glue between two collaborators that are not part of
    the repository: the device library (its [status], [on], [off] and
    [set_target_temperature] calls) and the host platform (logging, the
    config-entry forwarder, the entity registry, the refresh debouncer and
    the coordinator base class).  Their replies are supplied by an
    environment [Env]; every call made to them is recorded in a trace, so
    that statements such as "the device is not contacted" or "one refresh
    is requested" are statements about that trace. *)

From Stdlib Require Import ZArith QArith.
From stdpp Require Import gmap strings list.

Local Open Scope string_scope.

(** ** Python values and dictionaries *)

(** The values that reach this code through [entry.data] and [kwargs].
    A finite float is read as the rational it denotes. *)
Inductive PyVal : Type :=
| PyNone
| PyStr (s : string)
| PyInt (n : Z)
| PyFloat (q : Q).

(** [v is not None] *)
Definition is_not_None (v : PyVal) : bool :=
  match v with
  | PyNone => false
  | _ => true
  end.

(** [d.get(k)]: the stored value, [None] when the key is absent. *)
Definition dict_get (d : gmap string PyVal) (k : string) : PyVal :=
  default PyNone (d !! k).

(** The numeric reading of a value, used to say where it lies with respect
    to the advertised temperature range. *)
Definition as_number (v : PyVal) : option Q :=
  match v with
  | PyInt n => Some (inject_Z n)
  | PyFloat q => Some q
  | _ => None
  end.

(** ** Exceptions *)

(** Exception classes are identified up to the [except] clauses of the
    source: a constructor stands for the class and its subclasses. *)
Inductive Exn : Type :=
| DeviceException (msg : string)
| OSError (msg : string)
| PyException (cls msg : string)
| UpdateFailed (msg : string) (cause : Exn)
| ConfigEntryNotReady (cause : Exn).

(** [str(error)] *)
Definition str_of_exn (e : Exn) : string :=
  match e with
  | DeviceException msg => msg
  | OSError msg => msg
  | PyException _ msg => msg
  | UpdateFailed msg _ => msg
  | ConfigEntryNotReady _ => ""
  end.

Definition is_DeviceException (e : Exn) : bool :=
  match e with
  | DeviceException _ => true
  | _ => false
  end.

Definition is_OSError (e : Exn) : bool :=
  match e with
  | OSError _ => true
  | _ => false
  end.

(** ** Objects of the integration *)

(** [from .const import DOMAIN, DEFAULT_UPDATE_INTERVAL]: the constants
    module is taken as a parameter of the functions that use it. *)
Record Const : Type := mkConst {
  DOMAIN : string;
  DEFAULT_UPDATE_INTERVAL : Z;
}.

(** [homeassistant.const.ATTR_TEMPERATURE] *)
Definition ATTR_TEMPERATURE : string := "temperature".

Inductive Platform : Type := CLIMATE.

(** [homeassistant.components.climate.const.HVACMode] *)
Inductive HVACMode : Type :=
| OFF | HEAT | COOL | HEAT_COOL | AUTO | DRY | FAN_ONLY.

Record ConfigEntry : Type := mkConfigEntry {
  entry_id : string;
  entry_data : gmap string PyVal;
}.

(** [datetime.timedelta(seconds=n)] *)
Inductive timedelta : Type := Timedelta (seconds : Z).

(** The two device-library classes the source instantiates. *)
Inductive DeviceClass : Type := Heater | MiHeater.

(** A device client object: [Heater(host, token)] or [MiHeater(host, token)]. *)
Record DeviceClient : Type := mkDevice {
  device_class : DeviceClass;
  device_host : PyVal;
  device_token : PyVal;
}.

(** What [device.status()] returns, as far as the entity reads it. *)
Record HeaterStatus : Type := mkStatus {
  is_on : bool;
  temperature : Q;
  target_temperature : Q;
}.

(** [MiHeaterDataUpdateCoordinator]: the attribute set by its own
    [__init__], the two arguments it passes to the base class, and the
    poll state the base class keeps. *)
Record MiHeaterDataUpdateCoordinator : Type := mkCoordinator {
  device : DeviceClient;
  name : string;
  update_interval : timedelta;
  data : option HeaterStatus;
  last_exception : option Exn;
  last_update_success : bool;
}.

(** [MiHeaterClimate].  The entity only dereferences [coordinator.device]
    and the coordinator's refresh entry point, neither of which changes
    after construction. *)
Record MiHeaterClimate : Type := mkClimate {
  coordinator : MiHeaterDataUpdateCoordinator;
  _name : string;
  _unique_id : string;
}.

(** ** Calls that leave the integration *)

Inductive DeviceCall : Type :=
| CallStatus
| CallOn
| CallOff
| CallSetTargetTemperature (v : PyVal).

Inductive LogLevel : Type := WARNING | ERROR.

Inductive LogArg : Type :=
| ArgVal (v : PyVal)
| ArgExn (e : Exn)
| ArgMode (m : HVACMode).

Inductive Event : Type :=
| EvDevice (d : DeviceClient) (c : DeviceCall)
| EvRequestRefresh (d : DeviceClient)
| EvLog (lvl : LogLevel) (fmt : string) (args : list LogArg)
| EvForwardEntrySetups (entry : ConfigEntry) (platforms : list Platform)
| EvAddEntities (entities : list MiHeaterClimate) (update_before_add : bool).

(** The host state the integration writes directly ([hass.data]) and the
    record of the calls made so far, oldest first. *)
Record World : Type := mkWorld {
  hass_data : gmap string (gmap string (gmap string PyVal));
  trace : list Event;
}.

(** The replies of the collaborators.  A reply may depend on the device
    addressed and on everything that happened before the call. *)
Record Env : Type := mkEnv {
  device_status : DeviceClient -> list Event -> Exn + HeaterStatus;
  device_on : DeviceClient -> list Event -> Exn + unit;
  device_off : DeviceClient -> list Event -> Exn + unit;
  device_set_target_temperature :
    DeviceClient -> PyVal -> list Event -> Exn + unit;
  host_forward_entry_setups :
    ConfigEntry -> list Platform -> list Event -> Exn + unit;
}.

(** ** The effect monad: environment, world and exceptions *)

Inductive Res (A : Type) : Type :=
| Ok (a : A)
| Raise (e : Exn).
Arguments Ok {A} a.
Arguments Raise {A} e.

Definition M (A : Type) : Type := Env -> World -> Res A * World.

Definition ret {A} (a : A) : M A := fun _ w => (Ok a, w).

Definition bind {A B} (m : M A) (k : A -> M B) : M B :=
  fun env w =>
    match m env w with
    | (Ok a, w') => k a env w'
    | (Raise e, w') => (Raise e, w')
    end.

Definition raise {A} (e : Exn) : M A := fun _ w => (Raise e, w).

#[export] Instance M_ret : MRet M := @ret.
#[export] Instance M_bind : MBind M := fun A B k m => bind m k.
#[export] Instance M_throw : MThrow Exn M := @raise.

(** [try: body except <classes> as err: handler].  [handler err] is [None]
    when no [except] clause matches, and the exception then propagates. *)
Definition try_except {A} (body : M A) (handler : Exn -> option (M A)) : M A :=
  fun env w =>
    match body env w with
    | (Ok a, w') => (Ok a, w')
    | (Raise e, w') =>
        match handler e with
        | Some h => h env w'
        | None => (Raise e, w')
        end
    end.

Definition record_event (ev : Event) (w : World) : World :=
  mkWorld (hass_data w) (trace w ++ [ev]).

(** A call to a collaborator: it is recorded, and its reply is the one the
    environment gives for the history before the call. *)
Definition external {A} (ev : Event) (reply : Env -> list Event -> Exn + A)
  : M A :=
  fun env w =>
    match reply env (trace w) with
    | inr a => (Ok a, record_event ev w)
    | inl e => (Raise e, record_event ev w)
    end.

(** A call to the host that only registers something and returns. *)
Definition notify (ev : Event) : M unit :=
  fun _ w => (Ok tt, record_event ev w).

(** [hass.data.setdefault(k, {})] *)
Definition hass_data_setdefault (k : string) : M unit :=
  fun _ w =>
    match hass_data w !! k with
    | Some _ => (Ok tt, w)
    | None => (Ok tt, mkWorld (<[k := ∅]> (hass_data w)) (trace w))
    end.

(** [hass.data[k][id] = v]; a missing [k] is a [KeyError]. *)
Definition hass_data_setitem (k id : string) (v : gmap string PyVal) : M unit :=
  fun _ w =>
    match hass_data w !! k with
    | Some d => (Ok tt, mkWorld (<[k := <[id := v]> d]> (hass_data w)) (trace w))
    | None => (Raise (PyException "KeyError" k), w)
    end.

(** [hass.data[k].pop(id, None)]; a missing [k] is a [KeyError], a missing
    [id] is not an error. *)
Definition hass_data_pop (k id : string) : M unit :=
  fun _ w =>
    match hass_data w !! k with
    | Some d => (Ok tt, mkWorld (<[k := delete id d]> (hass_data w)) (trace w))
    | None => (Raise (PyException "KeyError" k), w)
    end.

(** [await hass.async_add_executor_job(f, args...)]: the value or the
    exception of the call [f(args...)]. *)
Definition async_add_executor_job {A} (job : M A) : M A := job.

(** [_LOGGER.warning(fmt, args...)] and [_LOGGER.error(fmt, args...)] *)
Definition _LOGGER_warning (fmt : string) (args : list LogArg) : M unit :=
  notify (EvLog WARNING fmt args).

Definition _LOGGER_error (fmt : string) (args : list LogArg) : M unit :=
  notify (EvLog ERROR fmt args).

(** The methods of the device library that the integration calls. *)
Module Device.

Definition status (d : DeviceClient) : M HeaterStatus :=
  external (EvDevice d CallStatus) (fun env => device_status env d).

Definition on (d : DeviceClient) : M unit :=
  external (EvDevice d CallOn) (fun env => device_on env d).

Definition off (d : DeviceClient) : M unit :=
  external (EvDevice d CallOff) (fun env => device_off env d).

Definition set_target_temperature (d : DeviceClient) (v : PyVal) : M unit :=
  external (EvDevice d (CallSetTargetTemperature v))
           (fun env => device_set_target_temperature env d v).

End Device.

(** ** custom_components/miheater/__init__.py *)

Module Integration.

Definition PLATFORMS : list Platform := [CLIMATE].

(** [await hass.config_entries.async_forward_entry_setups(entry, platforms)] *)
Definition async_forward_entry_setups
    (entry : ConfigEntry) (platforms : list Platform) : M unit :=
  external (EvForwardEntrySetups entry platforms)
           (fun env => host_forward_entry_setups env entry platforms).

(** [async_setup_entry(hass, entry)], lines 17-37. *)
Definition async_setup_entry (c : Const) (entry : ConfigEntry) : M bool :=
  hass_data_setdefault (DOMAIN c);;
  hass_data_setitem (DOMAIN c) (entry_id entry) (entry_data entry);;
  let host := dict_get (entry_data entry) "host" in
  let token := dict_get (entry_data entry) "token" in
  let device := mkDevice Heater host token in
  try_except
    (async_add_executor_job (Device.status device);; mret tt)
    (fun err =>
       if is_DeviceException err || is_OSError err
       then Some (_LOGGER_warning "Mi Heater not ready at %s: %s"
                                  [ArgVal host; ArgExn err];;
                  mthrow (ConfigEntryNotReady err))
       else None);;
  async_forward_entry_setups entry PLATFORMS;;
  mret true.

(** [async_unload_entry(hass, entry)], lines 39-44.  The host's
    [hass.config_entries.async_unload_platforms] is a parameter. *)
Definition async_unload_entry
    (async_unload_platforms : ConfigEntry -> list Platform -> M bool)
    (c : Const) (entry : ConfigEntry) : M bool :=
  unloaded ← async_unload_platforms entry PLATFORMS;
  (if unloaded : bool
   then hass_data_pop (DOMAIN c) (entry_id entry)
   else mret tt);;
  mret unloaded.

End Integration.

(** ** custom_components/miheater/climate.py *)

(** The type of the [_async_update_data] hook. *)
Definition UpdateHook : Type := MiHeaterDataUpdateCoordinator -> M HeaterStatus.

(** A method that may assign attributes of the coordinator: besides its
    result it yields the coordinator as the call left it, also when it
    raises. *)
Definition Method (A : Type) : Type :=
  MiHeaterDataUpdateCoordinator -> Env -> World ->
  Res A * MiHeaterDataUpdateCoordinator * World.

(** The methods [MiHeaterDataUpdateCoordinator] inherits from the host's
    coordinator base class and that run its [_async_update_data] hook.
    They belong to the host platform, so they are a parameter of the
    model; what is assumed of them is stated where it is used. *)
Record DataUpdateCoordinator : Type := mkBase {
  _async_refresh : UpdateHook -> Method unit;
  async_config_entry_first_refresh : UpdateHook -> Method unit;
}.

#[export] Instance HVACMode_eq_dec : EqDecision HVACMode.
Proof. solve_decision. Defined.

Module Climate.

(** [async_add_entities(entities, update_before_add)] *)
Definition async_add_entities
    (entities : list MiHeaterClimate) (update_before_add : bool) : M unit :=
  notify (EvAddEntities entities update_before_add).

(** [await coordinator.async_request_refresh()]: the request is handed to
    the host's debouncer. *)
Definition async_request_refresh (self : MiHeaterDataUpdateCoordinator) : M unit :=
  notify (EvRequestRefresh (device self)).

(** [MiHeaterDataUpdateCoordinator.__init__], lines 53-61.  A coordinator
    starts with no data and no recorded failure. *)
Definition MiHeaterDataUpdateCoordinator_init
    (c : Const) (device : DeviceClient) : MiHeaterDataUpdateCoordinator :=
  {| device := device;
     name := "Mi Heater Data Update";
     update_interval := Timedelta (DEFAULT_UPDATE_INTERVAL c);
     data := None;
     last_exception := None;
     last_update_success := true |}.

(** [MiHeaterDataUpdateCoordinator._async_update_data], lines 63-69. *)
Definition _async_update_data (self : MiHeaterDataUpdateCoordinator)
  : M HeaterStatus :=
  try_except
    (data ← async_add_executor_job (Device.status (device self));
     mret data)
    (fun error =>
       if is_DeviceException error
       then Some (mthrow (UpdateFailed
                            ("Error fetching data: " ++ str_of_exn error)
                            error))
       else None).

(** Lines 33-41 of [async_setup_entry]: the coordinator built for an entry. *)
Definition coordinator_for_entry (c : Const) (entry : ConfigEntry)
  : MiHeaterDataUpdateCoordinator :=
  let host := dict_get (entry_data entry) "host" in
  let token := dict_get (entry_data entry) "token" in
  let device := mkDevice MiHeater host token in
  MiHeaterDataUpdateCoordinator_init c device.

(** [async_setup_entry(hass, entry, async_add_entities)], lines 29-47. *)
Definition async_setup_entry
    (base : DataUpdateCoordinator) (c : Const) (entry : ConfigEntry) : M unit :=
  let name := "Mi Heater" in
  let coordinator := coordinator_for_entry c entry in
  fun env w =>
    match async_config_entry_first_refresh base _async_update_data
                                           coordinator env w with
    | (Ok _, coordinator, w') =>
        async_add_entities [mkClimate coordinator name (entry_id entry)] true
                           env w'
    | (Raise e, _, w') => (Raise e, w')
    end.

(** [min_temp] and [max_temp], lines 115-123. *)
Definition min_temp (self : MiHeaterClimate) : Q := 16.
Definition max_temp (self : MiHeaterClimate) : Q := 32.

(** [async_set_temperature], lines 125-132; [kwargs] is its keyword
    dictionary. *)
Definition async_set_temperature
    (self : MiHeaterClimate) (kwargs : gmap string PyVal) : M unit :=
  let temperature := dict_get kwargs ATTR_TEMPERATURE in
  if is_not_None temperature then
    async_add_executor_job
      (Device.set_target_temperature (device (coordinator self)) temperature);;
    async_request_refresh (coordinator self)
  else mret tt.

(** [async_set_hvac_mode(hvac_mode)], lines 134-143.  The refresh of line
    143 is reached from the first two branches; the third returns at
    line 142. *)
Definition async_set_hvac_mode
    (self : MiHeaterClimate) (hvac_mode : HVACMode) : M unit :=
  if decide (hvac_mode = HEAT) then
    async_add_executor_job (Device.on (device (coordinator self)));;
    async_request_refresh (coordinator self)
  else if decide (hvac_mode = OFF) then
    async_add_executor_job (Device.off (device (coordinator self)));;
    async_request_refresh (coordinator self)
  else
    _LOGGER_error "Unsupported HVAC mode: %s" [ArgMode hvac_mode].

(** [async_update()], lines 145-147. *)
Definition async_update (self : MiHeaterClimate) : M unit :=
  async_request_refresh (coordinator self).

(** [_attr_hvac_modes], line 78. *)
Definition _attr_hvac_modes : list HVACMode := [HEAT; OFF].

(** Reading an attribute of [self.coordinator.data]: an [AttributeError]
    when the coordinator holds no data. *)
Definition data_attr {A} (self : MiHeaterClimate) (attr : string)
    (read : HeaterStatus -> A) : Res A :=
  match data (coordinator self) with
  | Some d => Ok (read d)
  | None =>
      Raise (PyException "AttributeError"
               ("'NoneType' object has no attribute '" ++ attr ++ "'"))
  end.

(** The [hvac_mode] property, lines 98-103. *)
Definition hvac_mode (self : MiHeaterClimate) : Res HVACMode :=
  match data_attr self "is_on" is_on with
  | Ok on => if on then Ok HEAT else Ok OFF
  | Raise e => Raise e
  end.

(** The [current_temperature] property, lines 105-108. *)
Definition current_temperature (self : MiHeaterClimate) : Res Q :=
  data_attr self "temperature" temperature.

(** The [target_temperature] property, lines 110-113. *)
Definition target_temperature (self : MiHeaterClimate) : Res Q :=
  data_attr self "target_temperature" target_temperature.

(** The [unique_id] and [name] properties, lines 88-96. *)
Definition unique_id (self : MiHeaterClimate) : string := _unique_id self.
Definition name (self : MiHeaterClimate) : string := _name self.

End Climate.

(** ** Observations on traces *)

Definition is_refresh_request (ev : Event) : bool :=
  match ev with
  | EvRequestRefresh _ => true
  | _ => false
  end.

Definition is_device_call (ev : Event) : bool :=
  match ev with
  | EvDevice _ _ => true
  | _ => false
  end.

Definition is_forward (ev : Event) : bool :=
  match ev with
  | EvForwardEntrySetups _ _ => true
  | _ => false
  end.

(** The forced refreshes requested, and the device calls made, in a trace. *)
Definition refresh_requests (l : list Event) : list Event :=
  List.filter is_refresh_request l.

Definition device_calls (l : list Event) : list Event :=
  List.filter is_device_call l.

(** The part of the trace that a run added: [since w w'] is the list of
    events recorded between the worlds [w] and [w']. *)
Definition since (w w' : World) : list Event :=
  drop (length (trace w)) (trace w').

(** The advertised temperature range, read on the value of a command. *)
Definition in_range (self : MiHeaterClimate) (v : PyVal) : Prop :=
  exists q, as_number v = Some q /\
            (Climate.min_temp self <= q)%Q /\ (q <= Climate.max_temp self)%Q.

Definition outside_range (self : MiHeaterClimate) (v : PyVal) : Prop :=
  exists q, as_number v = Some q /\
            ((q < Climate.min_temp self)%Q \/ (Climate.max_temp self < q)%Q).

(** The device call a power mode stands for, and the device's reply to it. *)
Definition power_call (mode : HVACMode) : DeviceCall :=
  match mode with
  | HEAT => CallOn
  | _ => CallOff
  end.

Definition power_reply (env : Env) (dev : DeviceClient) (mode : HVACMode)
    (history : list Event) : Exn + unit :=
  match mode with
  | HEAT => device_on env dev history
  | _ => device_off env dev history
  end.

(** The poll interval as the specification words it: the configuration
    field [pollIntervalSeconds], an integer, 30 when absent. *)
Definition spec_pollIntervalSeconds (entry : ConfigEntry) : Z :=
  match entry_data entry !! "pollIntervalSeconds" with
  | Some (PyInt n) => n
  | _ => 30
  end.

(** ** The host coordinator the polling statements assume *)

(** The failures that [plain_base] below keeps to itself. *)
Definition absorbed (e : Exn) : bool :=
  match e with
  | UpdateFailed _ _ | OSError _ => true
  | _ => false
  end.

(** The coordinator as a method call left it. *)
Definition refreshed {A}
    (x : Res A * MiHeaterDataUpdateCoordinator * World)
  : MiHeaterDataUpdateCoordinator :=
  snd (fst x).

(** What the statements about the entity's state rely on from the
    inherited [_async_refresh]: when the hook returns, its value becomes
    [self.data]; when the hook raises, [self.data] is left as it was.
    Nothing is assumed of the result of the refresh, of the other
    attributes or of the world. *)
Record refresh_data_contract (base : DataUpdateCoordinator) : Prop := {
  refresh_stores_data :
    forall (hook : UpdateHook) self env w d w1,
      hook self env w = (Ok d, w1) ->
      data (refreshed (_async_refresh base hook self env w)) = Some d;
  refresh_keeps_data :
    forall (hook : UpdateHook) self env w e w1,
      hook self env w = (Raise e, w1) ->
      data (refreshed (_async_refresh base hook self env w)) = data self;
}.

(** [n] successive polls of the coordinator, as the host's timer and its
    debouncer drive them. *)
Fixpoint steady_state (base : DataUpdateCoordinator) (n : nat)
    (self : MiHeaterDataUpdateCoordinator) (env : Env) (w : World)
  : MiHeaterDataUpdateCoordinator * World :=
  match n with
  | O => (self, w)
  | S k =>
      let '(_, self', w') :=
        _async_refresh base Climate._async_update_data self env w in
      steady_state base k self' env w'
  end.

(** A base class that meets the two contracts, used to instantiate the
    statements that assume them. *)
Definition plain_base : DataUpdateCoordinator :=
  {| _async_refresh := fun hook self env w =>
       match hook self env w with
       | (Ok d, w1) =>
           (Ok tt,
            mkCoordinator (device self) (name self) (update_interval self)
                          (Some d) (last_exception self) true,
            w1)
       | (Raise e, w1) =>
           (if absorbed e then Ok tt else Raise e,
            mkCoordinator (device self) (name self) (update_interval self)
                          (data self) (Some e) false,
            w1)
       end;
     async_config_entry_first_refresh := fun hook self env w =>
       match hook self env w with
       | (Ok d, w1) =>
           (Ok tt,
            mkCoordinator (device self) (name self) (update_interval self)
                          (Some d) (last_exception self) true,
            w1)
       | (Raise e, w1) =>
           (Raise (ConfigEntryNotReady e),
            mkCoordinator (device self) (name self) (update_interval self)
                          (data self) (Some e) false,
            w1)
       end |}.

(** ** The polling controller of the specification *)

(** Modelled from the spec: the poll step of the polling controller.  In
    the code it is the refresh that [MiHeaterDataUpdateCoordinator]
    inherits from the coordinator base class, and the body of that method
    is not among the sources.  Specification, section 4.2: on success
    lastStatus is replaced and lastError cleared; on failure lastError is
    set to the reported error and lastStatus is preserved unchanged.
    Section 7: a steady-state poll failure is absorbed into lastError and
    does not throw past the controller boundary.  Here [data] is
    lastStatus, [last_exception] is lastError, and the fetch is the hook
    of the coordinator. *)
Definition spec_poll (hook : UpdateHook) : Method unit :=
  fun self env w =>
    match hook self env w with
    | (Ok d, w1) =>
        (Ok tt,
         mkCoordinator (device self) (name self) (update_interval self)
                       (Some d) None (last_update_success self),
         w1)
    | (Raise e, w1) =>
        (Ok tt,
         mkCoordinator (device self) (name self) (update_interval self)
                       (data self) (Some e) (last_update_success self),
         w1)
    end.

(** Modelled from the spec: the first poll of the polling controller, made
    during setup by the same absent base class.  Specification, section
    4.2: the very first poll must fail fast and propagate a not-ready
    signal to the owning lifecycle rather than being swallowed. *)
Definition spec_first_poll (hook : UpdateHook) : Method unit :=
  fun self env w =>
    match hook self env w with
    | (Ok d, w1) =>
        (Ok tt,
         mkCoordinator (device self) (name self) (update_interval self)
                       (Some d) None (last_update_success self),
         w1)
    | (Raise e, w1) =>
        (Raise (ConfigEntryNotReady e),
         mkCoordinator (device self) (name self) (update_interval self)
                       (data self) (Some e) (last_update_success self),
         w1)
    end.

(** Modelled from the spec: the polling controller, as the two methods
    above. *)
Definition spec_controller : DataUpdateCoordinator :=
  mkBase spec_poll spec_first_poll.

(** What the platform setup relies on from the inherited
    [async_config_entry_first_refresh].  It runs the hook once.  When the
    hook returns, its value becomes [self.data] and the call returns; when
    the hook raises, the call raises. *)
Record first_refresh_contract (base : DataUpdateCoordinator) : Prop := {
  first_refresh_stores_data :
    forall (hook : UpdateHook) self env w d w1,
      hook self env w = (Ok d, w1) ->
      exists self' w2,
        async_config_entry_first_refresh base hook self env w = (Ok tt, self', w2) /\
        data self' = Some d /\
        device self' = device self;
  first_refresh_raises :
    forall (hook : UpdateHook) self env w e w1,
      hook self env w = (Raise e, w1) ->
      exists e' self' w2,
        async_config_entry_first_refresh base hook self env w = (Raise e', self', w2);
}.

(** The entity, seen with its coordinator in the state [self]. *)
Definition observe (entity : MiHeaterClimate)
    (self : MiHeaterDataUpdateCoordinator) : MiHeaterClimate :=
  mkClimate self (_name entity) (_unique_id entity).

(** All three state properties of the entity can be read. *)
Definition readable (entity : MiHeaterClimate) : Prop :=
  exists mode current target,
    Climate.hvac_mode entity = Ok mode /\
    Climate.current_temperature entity = Ok current /\
    Climate.target_temperature entity = Ok target.

(** The write commands the host delivers to the entity, one service call
    after the other; an exception ends the call that raised it. *)
Inductive Command : Type :=
| SetTemperature (kwargs : gmap string PyVal)
| SetHvacMode (mode : HVACMode).

Definition run_command (self : MiHeaterClimate) (cmd : Command) : M unit :=
  match cmd with
  | SetTemperature kwargs => Climate.async_set_temperature self kwargs
  | SetHvacMode mode => Climate.async_set_hvac_mode self mode
  end.

Fixpoint run_commands (self : MiHeaterClimate) (cmds : list Command)
    (env : Env) (w : World) : World :=
  match cmds with
  | [] => w
  | cmd :: rest => run_commands self rest env (snd (run_command self cmd env w))
  end.

(** ** Concrete objects used to instantiate the statements *)

Module Sample.

Definition const30 : Const := mkConst "miheater" 30.

Definition heater : DeviceClient :=
  mkDevice MiHeater (PyStr "192.168.1.50") (PyStr "00112233445566778899aabbccddeeff").

Definition entry : ConfigEntry :=
  mkConfigEntry "entry-1"
    {[ "host" := PyStr "192.168.1.50";
       "token" := PyStr "00112233445566778899aabbccddeeff" ]}.

Definition entity : MiHeaterClimate :=
  mkClimate (Climate.MiHeaterDataUpdateCoordinator_init const30 heater)
            "Mi Heater" "entry-1".

Definition idle_at_18 : HeaterStatus := mkStatus false 18 20.

Definition unreachable : Exn := DeviceException "No response from the device".

(** A device that answers every call. *)
Definition env_up : Env :=
  {| device_status := fun _ _ => inr idle_at_18;
     device_on := fun _ _ => inr tt;
     device_off := fun _ _ => inr tt;
     device_set_target_temperature := fun _ _ _ => inr tt;
     host_forward_entry_setups := fun _ _ _ => inr tt |}.

(** A device that answers no call. *)
Definition env_down : Env :=
  {| device_status := fun _ _ => inl unreachable;
     device_on := fun _ _ => inl unreachable;
     device_off := fun _ _ => inl unreachable;
     device_set_target_temperature := fun _ _ _ => inl unreachable;
     host_forward_entry_setups := fun _ _ _ => inr tt |}.

Definition world0 : World := mkWorld ∅ [].

End Sample.

(** * Properties *)

(** ** Running the commands *)

Ltac run :=
  unfold mbind, M_bind, bind, mret, M_ret, ret, mthrow, M_throw, raise,
    async_add_executor_job, external, notify, try_except in *.

Lemma since_app (w : World) (h : gmap string (gmap string (gmap string PyVal)))
    (l : list Event) :
  since w (mkWorld h (trace w ++ l)) = l.
Proof. unfold since. simpl. apply drop_app_length. Qed.

Lemma since_record (w : World) (ev : Event) :
  since w (record_event ev w) = [ev].
Proof. unfold record_event. apply since_app. Qed.

Lemma since_refl (w : World) : since w w = [].
Proof. unfold since. apply drop_all. Qed.

Lemma number_is_not_None (v : PyVal) (q : Q) :
  as_number v = Some q -> is_not_None v = true.
Proof. destruct v; simpl; congruence. Qed.

(** What [async_set_temperature] does with a value that is not [None]. *)
Lemma async_set_temperature_run self kwargs env w :
  let v := dict_get kwargs ATTR_TEMPERATURE in
  let dev := device (coordinator self) in
  let call := EvDevice dev (CallSetTargetTemperature v) in
  is_not_None v = true ->
  Climate.async_set_temperature self kwargs env w =
  match device_set_target_temperature env dev v (trace w) with
  | inr _ => (Ok tt, mkWorld (hass_data w) (trace w ++ [call; EvRequestRefresh dev]))
  | inl e => (Raise e, mkWorld (hass_data w) (trace w ++ [call]))
  end.
Proof.
  intros v dev call Hn. unfold Climate.async_set_temperature.
  fold v. rewrite Hn.
  unfold Device.set_target_temperature, Climate.async_request_refresh. run.
  fold dev.
  destruct (device_set_target_temperature env dev v (trace w)) as [e|[]];
    unfold record_event; simpl; [reflexivity|].
  rewrite <- app_assoc. reflexivity.
Qed.

(** What [async_set_hvac_mode] does with one of the two supported modes. *)
Lemma async_set_hvac_mode_run self mode env w :
  let dev := device (coordinator self) in
  let call := EvDevice dev (power_call mode) in
  mode = HEAT \/ mode = OFF ->
  Climate.async_set_hvac_mode self mode env w =
  match power_reply env dev mode (trace w) with
  | inr _ => (Ok tt, mkWorld (hass_data w) (trace w ++ [call; EvRequestRefresh dev]))
  | inl e => (Raise e, mkWorld (hass_data w) (trace w ++ [call]))
  end.
Proof.
  intros dev call [-> | ->]; unfold Climate.async_set_hvac_mode; simpl;
    unfold Device.on, Device.off, Climate.async_request_refresh; run;
    fold dev; subst call; simpl.
  - destruct (device_on env dev (trace w)) as [e|[]];
      unfold record_event; simpl; [reflexivity|].
    rewrite <- app_assoc. reflexivity.
  - destruct (device_off env dev (trace w)) as [e|[]];
      unfold record_event; simpl; [reflexivity|].
    rewrite <- app_assoc. reflexivity.
Qed.

(** ** Target temperature *)

(** C1, counterexample: 40 lies outside [16,32]; with a device that answers,
    [async_set_temperature] returns without any error, having called the
    device's [set_target_temperature] with 40 and requested a refresh. *)
Lemma set_temperature_40_reaches_device :
  let kwargs : gmap string PyVal := {[ ATTR_TEMPERATURE := PyInt 40 ]} in
  let '(r, w') := Climate.async_set_temperature Sample.entity kwargs
                    Sample.env_up Sample.world0 in
  outside_range Sample.entity (PyInt 40) /\
  r = Ok tt /\
  trace w' = [EvDevice Sample.heater (CallSetTargetTemperature (PyInt 40));
              EvRequestRefresh Sample.heater].
Proof.
  vm_compute. split; [|split; reflexivity].
  exists (inject_Z 40). split; [reflexivity|]. right. reflexivity.
Qed.

(** C1, as amended: [async_set_temperature] applies no range check of its
    own.  For every value outside [16,32] it calls the device's
    [set_target_temperature] with exactly that value and nothing else on the
    device; the outcome is the device's: when the device call raises, that
    error reaches the caller and no refresh is requested, and when it
    returns, no error is produced and one refresh is requested. *)
Theorem set_temperature_out_of_range_is_forwarded
    (self : MiHeaterClimate) (kwargs : gmap string PyVal) (env : Env) (w : World) :
  let v := dict_get kwargs ATTR_TEMPERATURE in
  let dev := device (coordinator self) in
  outside_range self v ->
  let '(r, w') := Climate.async_set_temperature self kwargs env w in
  device_calls (since w w') = [EvDevice dev (CallSetTargetTemperature v)] /\
  hass_data w' = hass_data w /\
  match device_set_target_temperature env dev v (trace w) with
  | inr _ => r = Ok tt /\ refresh_requests (since w w') = [EvRequestRefresh dev]
  | inl e => r = Raise e /\ refresh_requests (since w w') = []
  end.
Proof.
  intros v dev (q & Hq & _).
  rewrite async_set_temperature_run by (eapply number_is_not_None; exact Hq).
  fold v dev.
  destruct (device_set_target_temperature env dev v (trace w)) as [e|[]];
    rewrite since_app; simpl; auto.
Qed.

Lemma set_temperature_out_of_range_is_forwarded_witness :
  outside_range Sample.entity (PyInt 40) /\
  let kwargs : gmap string PyVal := {[ ATTR_TEMPERATURE := PyInt 40 ]} in
  let '(r, w') := Climate.async_set_temperature Sample.entity kwargs
                    Sample.env_down Sample.world0 in
  device_calls (since Sample.world0 w') =
    [EvDevice Sample.heater (CallSetTargetTemperature (PyInt 40))] /\
  hass_data w' = hass_data Sample.world0 /\
  r = Raise Sample.unreachable /\ refresh_requests (since Sample.world0 w') = [].
Proof.
  assert (Hout : outside_range Sample.entity (PyInt 40)).
  { exists (inject_Z 40). split; [reflexivity|]. right. reflexivity. }
  split; [exact Hout|].
  exact (set_temperature_out_of_range_is_forwarded Sample.entity
           {[ ATTR_TEMPERATURE := PyInt 40 ]} Sample.env_down Sample.world0 Hout).
Defined.

(** C6, counterexample: 20 lies in [16,32], but when the device call raises,
    the value has been forwarded and no refresh follows. *)
Lemma set_temperature_20_device_down_no_refresh :
  let kwargs : gmap string PyVal := {[ ATTR_TEMPERATURE := PyInt 20 ]} in
  let '(r, w') := Climate.async_set_temperature Sample.entity kwargs
                    Sample.env_down Sample.world0 in
  in_range Sample.entity (PyInt 20) /\
  r = Raise Sample.unreachable /\
  trace w' = [EvDevice Sample.heater (CallSetTargetTemperature (PyInt 20))] /\
  refresh_requests (trace w') = [].
Proof.
  vm_compute. split; [|repeat split; reflexivity].
  exists (inject_Z 20). split; [reflexivity|]. split; discriminate.
Qed.

(** C6, as amended: for every temperature in [16,32], [async_set_temperature]
    first forwards exactly that value to the device's
    [set_target_temperature]; when that call returns, exactly one forced
    refresh is requested after it and nothing else happens; when it raises,
    the error reaches the caller and the forwarded call is all that
    happened. *)
Theorem set_temperature_in_range_forwards_then_refreshes
    (self : MiHeaterClimate) (kwargs : gmap string PyVal) (env : Env) (w : World) :
  let v := dict_get kwargs ATTR_TEMPERATURE in
  let dev := device (coordinator self) in
  let forwarded := EvDevice dev (CallSetTargetTemperature v) in
  in_range self v ->
  let '(r, w') := Climate.async_set_temperature self kwargs env w in
  match device_set_target_temperature env dev v (trace w) with
  | inr _ => r = Ok tt /\ since w w' = [forwarded; EvRequestRefresh dev] /\
             length (refresh_requests (since w w')) = 1
  | inl e => r = Raise e /\ since w w' = [forwarded]
  end.
Proof.
  intros v dev forwarded (q & Hq & _).
  rewrite async_set_temperature_run by (eapply number_is_not_None; exact Hq).
  fold v dev forwarded.
  destruct (device_set_target_temperature env dev v (trace w)) as [e|[]];
    rewrite since_app; simpl; auto.
Qed.

Lemma set_temperature_in_range_forwards_then_refreshes_witness :
  in_range Sample.entity (PyFloat (41 # 2)) /\
  let kwargs : gmap string PyVal := {[ ATTR_TEMPERATURE := PyFloat (41 # 2) ]} in
  let '(r, w') := Climate.async_set_temperature Sample.entity kwargs
                    Sample.env_up Sample.world0 in
  r = Ok tt /\
  since Sample.world0 w' =
    [EvDevice Sample.heater (CallSetTargetTemperature (PyFloat (41 # 2)));
     EvRequestRefresh Sample.heater] /\
  length (refresh_requests (since Sample.world0 w')) = 1.
Proof.
  assert (Hin : in_range Sample.entity (PyFloat (41 # 2))).
  { exists (41 # 2). split; [reflexivity|]. split; discriminate. }
  split; [exact Hin|].
  exact (set_temperature_in_range_forwards_then_refreshes Sample.entity
           {[ ATTR_TEMPERATURE := PyFloat (41 # 2) ]} Sample.env_up Sample.world0 Hin).
Defined.

(** C9: when the keyword dictionary carries no temperature (the key is
    absent or holds [None]), [async_set_temperature] returns normally and
    the world is exactly what it was: no device call, no refresh request,
    no change to [hass.data]. *)
Theorem set_temperature_without_value_does_nothing
    (self : MiHeaterClimate) (kwargs : gmap string PyVal) (env : Env) (w : World) :
  dict_get kwargs ATTR_TEMPERATURE = PyNone ->
  Climate.async_set_temperature self kwargs env w = (Ok tt, w).
Proof.
  intros Hnone. unfold Climate.async_set_temperature. rewrite Hnone.
  reflexivity.
Qed.

Lemma set_temperature_without_value_does_nothing_witness :
  dict_get (∅ : gmap string PyVal) ATTR_TEMPERATURE = PyNone /\
  Climate.async_set_temperature Sample.entity ∅ Sample.env_up Sample.world0
    = (Ok tt, Sample.world0).
Proof.
  split; [reflexivity|].
  apply (set_temperature_without_value_does_nothing Sample.entity ∅
           Sample.env_up Sample.world0).
  reflexivity.
Defined.

(** ** Power mode *)

(** C2, counterexample: with a device that does not answer, switching to
    HEAT raises the device's error and the run ends there: the device call
    is the only event, no refresh request follows it. *)
Lemma set_hvac_mode_heat_device_down_no_refresh :
  let '(r, w') := Climate.async_set_hvac_mode Sample.entity HEAT
                    Sample.env_down Sample.world0 in
  r = Raise Sample.unreachable /\
  trace w' = [EvDevice Sample.heater CallOn] /\
  refresh_requests (trace w') = [].
Proof. vm_compute. repeat split; reflexivity. Qed.

(** C2, as amended: for HEAT and for OFF, [async_set_hvac_mode] calls the
    device's [on], respectively [off].  When that call returns, exactly one
    forced refresh is requested after it.  When it raises, the error
    propagates to the caller and no refresh is requested. *)
Theorem set_hvac_mode_refreshes_after_success
    (self : MiHeaterClimate) (mode : HVACMode) (env : Env) (w : World) :
  let dev := device (coordinator self) in
  let call := EvDevice dev (power_call mode) in
  mode = HEAT \/ mode = OFF ->
  let '(r, w') := Climate.async_set_hvac_mode self mode env w in
  hass_data w' = hass_data w /\
  match power_reply env dev mode (trace w) with
  | inr _ => r = Ok tt /\ since w w' = [call; EvRequestRefresh dev]
  | inl e => r = Raise e /\ since w w' = [call] /\
             refresh_requests (since w w') = []
  end.
Proof.
  intros dev call Hmode.
  rewrite async_set_hvac_mode_run by exact Hmode.
  fold dev call.
  destruct (power_reply env dev mode (trace w)) as [e|[]];
    rewrite since_app; simpl; auto.
Qed.

Lemma set_hvac_mode_refreshes_after_success_witness :
  (OFF = HEAT \/ OFF = OFF) /\
  let '(r, w') := Climate.async_set_hvac_mode Sample.entity OFF
                    Sample.env_up Sample.world0 in
  hass_data w' = hass_data Sample.world0 /\
  r = Ok tt /\
  since Sample.world0 w' =
    [EvDevice Sample.heater CallOff; EvRequestRefresh Sample.heater].
Proof.
  split; [right; reflexivity|].
  exact (set_hvac_mode_refreshes_after_success Sample.entity OFF
           Sample.env_up Sample.world0 (or_intror eq_refl)).
Defined.

(** C10: for every mode other than HEAT and OFF, [async_set_hvac_mode]
    returns normally after logging one error: the log entry is the only
    event of the run, so no device call is made and no refresh is
    requested, and [hass.data] is what it was. *)
Theorem set_hvac_mode_unsupported_only_logs
    (self : MiHeaterClimate) (mode : HVACMode) (env : Env) (w : World) :
  mode <> HEAT -> mode <> OFF ->
  let '(r, w') := Climate.async_set_hvac_mode self mode env w in
  r = Ok tt /\
  hass_data w' = hass_data w /\
  since w w' = [EvLog ERROR "Unsupported HVAC mode: %s" [ArgMode mode]] /\
  device_calls (since w w') = [] /\
  refresh_requests (since w w') = [].
Proof.
  intros Hheat Hoff. unfold Climate.async_set_hvac_mode.
  destruct (decide (mode = HEAT)) as [?|_]; [contradiction|].
  destruct (decide (mode = OFF)) as [?|_]; [contradiction|].
  unfold _LOGGER_error, notify. rewrite since_record. simpl. auto.
Qed.

Lemma set_hvac_mode_unsupported_only_logs_witness :
  COOL <> HEAT /\ COOL <> OFF /\
  let '(r, w') := Climate.async_set_hvac_mode Sample.entity COOL
                    Sample.env_up Sample.world0 in
  r = Ok tt /\
  hass_data w' = hass_data Sample.world0 /\
  since Sample.world0 w' = [EvLog ERROR "Unsupported HVAC mode: %s" [ArgMode COOL]] /\
  device_calls (since Sample.world0 w') = [] /\
  refresh_requests (since Sample.world0 w') = [].
Proof.
  split; [discriminate|]. split; [discriminate|].
  apply (set_hvac_mode_unsupported_only_logs Sample.entity COOL
           Sample.env_up Sample.world0); discriminate.
Defined.

(** ** Poll interval *)

(** C3, counterexample: no value of the constants module makes the
    coordinator's update interval follow the entry's [pollIntervalSeconds];
    two entries configured with 10 and with 60 seconds get the same
    interval. *)
Lemma update_interval_ignores_pollIntervalSeconds :
  ~ exists c : Const, forall entry : ConfigEntry,
      update_interval (Climate.coordinator_for_entry c entry)
      = Timedelta (spec_pollIntervalSeconds entry).
Proof.
  intros [c H].
  pose proof (H (mkConfigEntry "entry-10" {[ "pollIntervalSeconds" := PyInt 10 ]})) as H10.
  pose proof (H (mkConfigEntry "entry-60" {[ "pollIntervalSeconds" := PyInt 60 ]})) as H60.
  vm_compute in H10, H60. congruence.
Qed.

(** C3, as amended: the poll interval is not read from the configuration.
    For every config entry, whatever its data, the coordinator built for it
    polls every [DEFAULT_UPDATE_INTERVAL] seconds, the constant imported
    from the integration's constants module; so any two entries are polled
    at the same interval. *)
Theorem update_interval_is_the_default_constant (c : Const) (entry : ConfigEntry) :
  update_interval (Climate.coordinator_for_entry c entry)
  = Timedelta (DEFAULT_UPDATE_INTERVAL c) /\
  forall entry' : ConfigEntry,
    update_interval (Climate.coordinator_for_entry c entry')
    = update_interval (Climate.coordinator_for_entry c entry).
Proof. split; reflexivity. Qed.

(** ** Setup probe *)

Lemma hass_data_store_run (k id : string) (v : gmap string PyVal)
    (env : Env) (w : World) :
  exists h, (hass_data_setdefault k;; hass_data_setitem k id v) env w
            = (Ok tt, mkWorld h (trace w)).
Proof.
  unfold hass_data_setdefault, hass_data_setitem. run.
  destruct (hass_data w !! k) as [d|] eqn:Hk; simpl.
  - rewrite Hk. eauto.
  - rewrite lookup_insert_eq. eauto.
Qed.

(** C4: when the status probe made by [async_setup_entry] fails with a
    [DeviceException] or an [OSError], the setup raises
    [ConfigEntryNotReady] caused by that error.  The probe and one warning
    are the only events of the run: the entry is not forwarded to the
    climate platform, so the coordinator that owns the polling timer is
    never created. *)
Theorem setup_probe_failure_raises_not_ready
    (c : Const) (entry : ConfigEntry) (env : Env) (w : World) (e : Exn) :
  let host := dict_get (entry_data entry) "host" in
  let token := dict_get (entry_data entry) "token" in
  let dev := mkDevice Heater host token in
  device_status env dev (trace w) = inl e ->
  is_DeviceException e || is_OSError e = true ->
  let '(r, w') := Integration.async_setup_entry c entry env w in
  r = Raise (ConfigEntryNotReady e) /\
  since w w' = [EvDevice dev CallStatus;
                EvLog WARNING "Mi Heater not ready at %s: %s"
                      [ArgVal host; ArgExn e]] /\
  List.filter is_forward (since w w') = [].
Proof.
  intros host token dev Hfail Hkind.
  destruct (hass_data_store_run (DOMAIN c) (entry_id entry) (entry_data entry) env w)
    as [h Hstore].
  unfold Integration.async_setup_entry.
  fold host token dev.
  run.
  destruct (hass_data_setdefault (DOMAIN c) env w) as [[[]|e0] w1] eqn:H1;
    [|discriminate].
  rewrite Hstore.
  unfold Device.status, _LOGGER_warning. run. simpl.
  rewrite Hfail, Hkind. unfold record_event. simpl.
  rewrite <- app_assoc. rewrite since_app. simpl. auto.
Qed.

Lemma setup_probe_failure_raises_not_ready_witness :
  let '(r, w') := Integration.async_setup_entry Sample.const30 Sample.entry
                    Sample.env_down Sample.world0 in
  r = Raise (ConfigEntryNotReady Sample.unreachable) /\
  since Sample.world0 w' =
    [EvDevice (mkDevice Heater (PyStr "192.168.1.50")
                        (PyStr "00112233445566778899aabbccddeeff")) CallStatus;
     EvLog WARNING "Mi Heater not ready at %s: %s"
           [ArgVal (PyStr "192.168.1.50"); ArgExn Sample.unreachable]] /\
  List.filter is_forward (since Sample.world0 w') = [].
Proof.
  apply (setup_probe_failure_raises_not_ready Sample.const30 Sample.entry
           Sample.env_down Sample.world0 Sample.unreachable);
    reflexivity.
Defined.

(** ** Steady-state polling *)

Lemma plain_base_data_contract : refresh_data_contract plain_base.
Proof.
  split; intros hook self env w ? w1 Hhook; unfold refreshed; simpl;
    rewrite Hhook; reflexivity.
Qed.

Lemma spec_controller_data_contract : refresh_data_contract spec_controller.
Proof.
  split; intros hook self env w ? w1 Hhook; unfold refreshed; simpl;
    unfold spec_poll; rewrite Hhook; reflexivity.
Qed.

(** The hook, seen from its caller: the status the device returned, or the
    device's error, wrapped in [UpdateFailed] when it is a
    [DeviceException]. *)
Lemma _async_update_data_run self env w :
  Climate._async_update_data self env w =
  match device_status env (device self) (trace w) with
  | inr d => (Ok d, record_event (EvDevice (device self) CallStatus) w)
  | inl e =>
      (Raise (if is_DeviceException e
              then UpdateFailed ("Error fetching data: " ++ str_of_exn e) e
              else e),
       record_event (EvDevice (device self) CallStatus) w)
  end.
Proof.
  unfold Climate._async_update_data, Device.status. run.
  destruct (device_status env (device self) (trace w)) as [e|d]; simpl;
    [|reflexivity].
  destruct (is_DeviceException e); reflexivity.
Qed.

Section Polling.

Variable base : DataUpdateCoordinator.
Hypothesis base_ok : refresh_data_contract base.

Lemma poll_keeps_some_data self env w :
  data self <> None ->
  data (refreshed (_async_refresh base Climate._async_update_data self env w))
  <> None.
Proof.
  intros Hsome.
  destruct (Climate._async_update_data self env w) as [[d|e] w1] eqn:Hhook.
  - rewrite (refresh_stores_data base base_ok _ _ _ _ _ _ Hhook). discriminate.
  - rewrite (refresh_keeps_data base base_ok _ _ _ _ _ _ Hhook). exact Hsome.
Qed.

Lemma steady_state_keeps_some_data n : forall self env w,
  data self <> None ->
  data (fst (steady_state base n self env w)) <> None.
Proof.
  induction n as [|n IH]; intros self env w Hsome; simpl; [exact Hsome|].
  pose proof (poll_keeps_some_data self env w Hsome) as Hstep.
  destruct (_async_refresh base Climate._async_update_data self env w)
    as [[r self'] w'].
  apply IH. exact Hstep.
Qed.

End Polling.

(** C5: over the polling controller of the specification, take a
    coordinator whose last successful poll left the status [s] in [data],
    and a poll whose fetch fails with the error [e].  The fetch of the
    source reports the failure by raising ([e] itself, or the
    [UpdateFailed] it raises from a [DeviceException]); after the poll
    [last_exception] holds that reported error and [data] is still [s];
    and however many polls follow, failing or not, [data] is never empty
    again. *)
Theorem failed_poll_keeps_last_status
    (self : MiHeaterDataUpdateCoordinator) (env : Env) (w : World)
    (s : HeaterStatus) (e : Exn) :
  data self = Some s ->
  device_status env (device self) (trace w) = inl e ->
  exists self' w' err,
    fst (Climate._async_update_data self env w) = Raise err /\
    (err = e \/ exists msg, err = UpdateFailed msg e) /\
    _async_refresh spec_controller Climate._async_update_data self env w
    = (Ok tt, self', w') /\
    last_exception self' = Some err /\
    data self' = Some s /\
    forall n, data (fst (steady_state spec_controller n self' env w')) <> None.
Proof.
  intros Hdata Hfail.
  pose proof (_async_update_data_run self env w) as Hhook. rewrite Hfail in Hhook.
  simpl. unfold spec_poll. rewrite Hhook. simpl.
  do 3 eexists.
  split; [reflexivity|].
  split; [destruct (is_DeviceException e); eauto|].
  split; [reflexivity|]. simpl.
  split; [reflexivity|].
  split; [exact Hdata|].
  intros n.
  apply (steady_state_keeps_some_data spec_controller spec_controller_data_contract).
  simpl. rewrite Hdata. discriminate.
Qed.

Lemma failed_poll_keeps_last_status_witness :
  let self :=
    mkCoordinator Sample.heater "Mi Heater Data Update" (Timedelta 30)
                  (Some Sample.idle_at_18) None true in
  exists self' w' err,
    fst (Climate._async_update_data self Sample.env_down Sample.world0) = Raise err /\
    (err = Sample.unreachable \/ exists msg, err = UpdateFailed msg Sample.unreachable) /\
    _async_refresh spec_controller Climate._async_update_data self
                   Sample.env_down Sample.world0 = (Ok tt, self', w') /\
    last_exception self' = Some err /\
    data self' = Some Sample.idle_at_18 /\
    forall n, data (fst (steady_state spec_controller n self' Sample.env_down w')) <> None.
Proof.
  apply (failed_poll_keeps_last_status
           (mkCoordinator Sample.heater "Mi Heater Data Update" (Timedelta 30)
                          (Some Sample.idle_at_18) None true)
           Sample.env_down Sample.world0 Sample.idle_at_18 Sample.unreachable);
    reflexivity.
Defined.

(** C7: over the polling controller of the specification, a steady-state
    poll whose fetch fails with a connectivity error of either kind the
    integration knows, [DeviceException] or [OSError], returns normally:
    the failure does not leave the controller.  It is kept in
    [last_exception], as the error the fetch of the source raised: the
    [UpdateFailed] made from a [DeviceException], or the [OSError]
    itself. *)
Theorem connectivity_failure_is_absorbed
    (self : MiHeaterDataUpdateCoordinator) (env : Env) (w : World) (e : Exn) :
  device_status env (device self) (trace w) = inl e ->
  is_DeviceException e || is_OSError e = true ->
  exists self' w' err,
    fst (Climate._async_update_data self env w) = Raise err /\
    (err = e \/ err = UpdateFailed ("Error fetching data: " ++ str_of_exn e) e) /\
    _async_refresh spec_controller Climate._async_update_data self env w
    = (Ok tt, self', w') /\
    last_exception self' = Some err.
Proof.
  intros Hfail Hkind.
  pose proof (_async_update_data_run self env w) as Hhook. rewrite Hfail in Hhook.
  simpl. unfold spec_poll. rewrite Hhook. simpl.
  do 3 eexists.
  split; [reflexivity|].
  split; [destruct (is_DeviceException e); eauto|].
  split; reflexivity.
Qed.

Lemma connectivity_failure_is_absorbed_witness :
  let self := Climate.MiHeaterDataUpdateCoordinator_init Sample.const30 Sample.heater in
  let no_route := OSError "Network is unreachable" in
  let env :=
    mkEnv (fun _ _ => inl no_route) (fun _ _ => inr tt) (fun _ _ => inr tt)
          (fun _ _ _ => inr tt) (fun _ _ _ => inr tt) in
  exists self' w' err,
    fst (Climate._async_update_data self env Sample.world0) = Raise err /\
    (err = no_route \/
     err = UpdateFailed ("Error fetching data: " ++ str_of_exn no_route) no_route) /\
    _async_refresh spec_controller Climate._async_update_data self env Sample.world0
    = (Ok tt, self', w') /\
    last_exception self' = Some err.
Proof.
  apply (connectivity_failure_is_absorbed
           (Climate.MiHeaterDataUpdateCoordinator_init Sample.const30 Sample.heater)
           (mkEnv (fun _ _ => inl (OSError "Network is unreachable"))
                  (fun _ _ => inr tt) (fun _ _ => inr tt)
                  (fun _ _ _ => inr tt) (fun _ _ _ => inr tt))
           Sample.world0 (OSError "Network is unreachable"));
    reflexivity.
Defined.

(** ** Entity update *)

(** [async_update] contacts nothing itself: it hands one refresh request to
    the coordinator, and scheduling the fetch is the host's business. *)
Lemma async_update_only_requests_refresh self env w :
  Climate.async_update self env w
  = (Ok tt, record_event (EvRequestRefresh (device (coordinator self))) w).
Proof. reflexivity. Qed.

(** ** The setup path when the device answers *)

(** With a device that answers, [async_setup_entry] stores the entry data,
    probes the device, forwards the entry to the climate platform and
    returns [True]. *)
Example setup_with_device_up :
  let '(r, w') := Integration.async_setup_entry Sample.const30 Sample.entry
                    Sample.env_up Sample.world0 in
  r = Ok true /\
  hass_data w' !! "miheater" = Some {[ "entry-1" := entry_data Sample.entry ]} /\
  trace w' =
    [EvDevice (mkDevice Heater (PyStr "192.168.1.50")
                        (PyStr "00112233445566778899aabbccddeeff")) CallStatus;
     EvForwardEntrySetups Sample.entry [CLIMATE]].
Proof. vm_compute. repeat split; reflexivity. Qed.

(** The climate platform, over a base class that meets the contract: the
    first refresh fetches the status and one entity is registered. *)
Example platform_setup_with_device_up :
  let '(r, w') := Climate.async_setup_entry plain_base Sample.const30 Sample.entry
                    Sample.env_up Sample.world0 in
  r = Ok tt /\
  exists entity,
    trace w' = [EvDevice Sample.heater CallStatus; EvAddEntities [entity] true] /\
    data (coordinator entity) = Some Sample.idle_at_18 /\
    update_interval (coordinator entity) = Timedelta 30.
Proof. vm_compute. split; [reflexivity|]. eexists. repeat split; reflexivity. Qed.

(** * Further properties of the code *)

(** ** Setup: [hass.data], probe and forward *)

Lemma hass_data_store_world (k id : string) (v : gmap string PyVal)
    (env : Env) (w : World) :
  (hass_data_setdefault k;; hass_data_setitem k id v) env w
  = (Ok tt,
     mkWorld (<[k := <[id := v]> (default ∅ (hass_data w !! k))]> (hass_data w))
             (trace w)).
Proof.
  unfold hass_data_setdefault, hass_data_setitem. run.
  destruct (hass_data w !! k) as [d|] eqn:Hk; simpl.
  - rewrite Hk. reflexivity.
  - rewrite lookup_insert_eq, insert_insert_eq. reflexivity.
Qed.

(** Every run of [async_setup_entry], by the replies of the device and of
    the host's forwarder. *)
Lemma integration_setup_run (c : Const) (entry : ConfigEntry) (env : Env) (w : World) :
  let host := dict_get (entry_data entry) "host" in
  let token := dict_get (entry_data entry) "token" in
  let probe := EvDevice (mkDevice Heater host token) CallStatus in
  let forward := EvForwardEntrySetups entry [CLIMATE] in
  let h := <[DOMAIN c := <[entry_id entry := entry_data entry]>
                           (default ∅ (hass_data w !! DOMAIN c))]> (hass_data w) in
  Integration.async_setup_entry c entry env w =
  match device_status env (mkDevice Heater host token) (trace w) with
  | inr _ =>
      match host_forward_entry_setups env entry [CLIMATE] (trace w ++ [probe]) with
      | inr _ => (Ok true, mkWorld h (trace w ++ [probe; forward]))
      | inl e => (Raise e, mkWorld h (trace w ++ [probe; forward]))
      end
  | inl e =>
      if is_DeviceException e || is_OSError e
      then (Raise (ConfigEntryNotReady e),
            mkWorld h (trace w ++ [probe;
                                   EvLog WARNING "Mi Heater not ready at %s: %s"
                                         [ArgVal host; ArgExn e]]))
      else (Raise e, mkWorld h (trace w ++ [probe]))
  end.
Proof.
  intros host token probe forward h.
  pose proof (hass_data_store_world (DOMAIN c) (entry_id entry) (entry_data entry) env w)
    as Hstore.
  unfold Integration.async_setup_entry.
  fold host token. run.
  destruct (hass_data_setdefault (DOMAIN c) env w) as [[[]|e0] w1] eqn:H1;
    [|discriminate].
  rewrite Hstore. fold h.
  unfold Device.status, Integration.async_forward_entry_setups,
    Integration.PLATFORMS, _LOGGER_warning. run. simpl.
  destruct (device_status env (mkDevice Heater host token) (trace w)) as [e|s];
    simpl.
  - destruct (is_DeviceException e || is_OSError e); unfold record_event; simpl;
      [rewrite <- app_assoc|]; reflexivity.
  - fold probe.
    destruct (host_forward_entry_setups env entry [CLIMATE] (trace w ++ [probe]))
      as [e|[]]; unfold record_event; simpl; rewrite <- app_assoc; reflexivity.
Qed.

(** X1: a probe failure that is neither a [DeviceException] nor an
    [OSError] is not turned into [ConfigEntryNotReady]: it propagates as it
    is, without the warning, and the entry is not forwarded; the probe is
    the only event of the run. *)
Theorem setup_probe_other_error_propagates
    (c : Const) (entry : ConfigEntry) (env : Env) (w : World) (e : Exn) :
  let host := dict_get (entry_data entry) "host" in
  let token := dict_get (entry_data entry) "token" in
  let dev := mkDevice Heater host token in
  device_status env dev (trace w) = inl e ->
  is_DeviceException e || is_OSError e = false ->
  let '(r, w') := Integration.async_setup_entry c entry env w in
  r = Raise e /\ since w w' = [EvDevice dev CallStatus].
Proof.
  intros host token dev Hfail Hkind.
  rewrite integration_setup_run. fold host token dev.
  rewrite Hfail, Hkind. rewrite since_app. auto.
Qed.

Lemma setup_probe_other_error_propagates_witness :
  let bad_token := PyException "ValueError" "non-hexadecimal number found" in
  let env :=
    mkEnv (fun _ _ => inl bad_token) (fun _ _ => inr tt) (fun _ _ => inr tt)
          (fun _ _ _ => inr tt) (fun _ _ _ => inr tt) in
  let '(r, w') := Integration.async_setup_entry Sample.const30 Sample.entry
                    env Sample.world0 in
  r = Raise bad_token /\
  since Sample.world0 w' =
    [EvDevice (mkDevice Heater (PyStr "192.168.1.50")
                        (PyStr "00112233445566778899aabbccddeeff")) CallStatus].
Proof.
  apply (setup_probe_other_error_propagates Sample.const30 Sample.entry
           (mkEnv (fun _ _ => inl (PyException "ValueError" "non-hexadecimal number found"))
                  (fun _ _ => inr tt) (fun _ _ => inr tt)
                  (fun _ _ _ => inr tt) (fun _ _ _ => inr tt))
           Sample.world0
           (PyException "ValueError" "non-hexadecimal number found"));
    reflexivity.
Defined.

(** X2: the entry is forwarded to the climate platform exactly when the
    probe returned a status, and then right after the probe; the setup
    returns [True] exactly when the probe and the forward both returned,
    and it never returns [False]. *)
Theorem setup_forwards_iff_probe_succeeds
    (c : Const) (entry : ConfigEntry) (env : Env) (w : World) :
  let host := dict_get (entry_data entry) "host" in
  let token := dict_get (entry_data entry) "token" in
  let dev := mkDevice Heater host token in
  let probe := EvDevice dev CallStatus in
  let forward := EvForwardEntrySetups entry [CLIMATE] in
  let '(r, w') := Integration.async_setup_entry c entry env w in
  (List.filter is_forward (since w w') = [forward] <->
   exists s, device_status env dev (trace w) = inr s) /\
  ((exists s, device_status env dev (trace w) = inr s) ->
   since w w' = [probe; forward]) /\
  (r = Ok true <->
   (exists s, device_status env dev (trace w) = inr s) /\
   host_forward_entry_setups env entry [CLIMATE] (trace w ++ [probe]) = inr tt) /\
  r <> Ok false.
Proof.
  intros host token dev probe forward.
  rewrite integration_setup_run. fold host token dev probe forward.
  destruct (device_status env dev (trace w)) as [e|s].
  - destruct (is_DeviceException e || is_OSError e); rewrite since_app; simpl;
      (repeat split; try discriminate; try (intros [s ?]; discriminate);
       try (intros [[s ?] _]; discriminate)).
  - destruct (host_forward_entry_setups env entry [CLIMATE] (trace w ++ [probe]))
      as [e|[]]; rewrite since_app; simpl;
      repeat split; eauto; try discriminate.
    intros [_ ?]. discriminate.
Qed.

(** X3: whatever the outcome of the probe, after [async_setup_entry] the
    entry's data is stored under [hass.data[DOMAIN][entry_id]]; the data of
    the other entries of the domain and the other keys of [hass.data] are
    what they were.  In particular a setup that ends in
    [ConfigEntryNotReady] leaves the entry's data behind. *)
Theorem setup_stores_entry_data
    (c : Const) (entry : ConfigEntry) (env : Env) (w : World) :
  let '(_, w') := Integration.async_setup_entry c entry env w in
  exists d' : gmap string (gmap string PyVal),
    hass_data w' !! DOMAIN c = Some d' /\
    d' !! entry_id entry = Some (entry_data entry) /\
    (forall id, id <> entry_id entry ->
                d' !! id = default ∅ (hass_data w !! DOMAIN c) !! id) /\
    (forall k, k <> DOMAIN c -> hass_data w' !! k = hass_data w !! k).
Proof.
  rewrite integration_setup_run.
  set (d' := <[entry_id entry := entry_data entry]>
               (default ∅ (hass_data w !! DOMAIN c))).
  assert (Hd : d' !! entry_id entry = Some (entry_data entry))
    by apply lookup_insert_eq.
  assert (Hother : forall id, id <> entry_id entry ->
            d' !! id = default ∅ (hass_data w !! DOMAIN c) !! id)
    by (intros id Hne; apply lookup_insert_ne; congruence).
  destruct (device_status env _ (trace w)) as [e|s];
    [destruct (is_DeviceException e || is_OSError e)
    |destruct (host_forward_entry_setups env entry [CLIMATE] _) as [e|[]]];
    exists d'; simpl;
    (split; [apply lookup_insert_eq|]; split; [exact Hd|]; split; [exact Hother|];
     intros k Hne; apply lookup_insert_ne; congruence).
Qed.

(** ** Unload *)

(** Every run of [async_unload_entry], by what the host's
    [async_unload_platforms] did. *)
Lemma integration_unload_run
    (up : ConfigEntry -> list Platform -> M bool)
    (c : Const) (entry : ConfigEntry) (env : Env) (w : World) :
  Integration.async_unload_entry up c entry env w =
  match up entry [CLIMATE] env w with
  | (Ok true, w1) =>
      match hass_data w1 !! DOMAIN c with
      | Some d =>
          (Ok true,
           mkWorld (<[DOMAIN c := delete (entry_id entry) d]> (hass_data w1))
                   (trace w1))
      | None => (Raise (PyException "KeyError" (DOMAIN c)), w1)
      end
  | (Ok false, w1) => (Ok false, w1)
  | (Raise e, w1) => (Raise e, w1)
  end.
Proof.
  unfold Integration.async_unload_entry, Integration.PLATFORMS, hass_data_pop. run.
  destruct (up entry [CLIMATE] env w) as [[[|]|e] w1]; simpl; try reflexivity.
  destruct (hass_data w1 !! DOMAIN c); reflexivity.
Qed.

(** X4: when the host reports the platforms unloaded, [async_unload_entry]
    returns [True] and removes this entry's data from [hass.data[DOMAIN]],
    whether or not it was there; the data of the other entries, the other
    keys of [hass.data] and the trace are as the host left them. *)
Theorem unload_removes_only_this_entry
    (up : ConfigEntry -> list Platform -> M bool)
    (c : Const) (entry : ConfigEntry) (env : Env) (w w1 : World)
    (d : gmap string (gmap string PyVal)) :
  up entry [CLIMATE] env w = (Ok true, w1) ->
  hass_data w1 !! DOMAIN c = Some d ->
  let '(r, w') := Integration.async_unload_entry up c entry env w in
  r = Ok true /\
  trace w' = trace w1 /\
  exists d' : gmap string (gmap string PyVal),
    hass_data w' !! DOMAIN c = Some d' /\
    d' !! entry_id entry = None /\
    (forall id, id <> entry_id entry -> d' !! id = d !! id) /\
    (forall k, k <> DOMAIN c -> hass_data w' !! k = hass_data w1 !! k).
Proof.
  intros Hup Hd. rewrite integration_unload_run, Hup, Hd. simpl.
  split; [reflexivity|]. split; [reflexivity|].
  exists (delete (entry_id entry) d).
  split; [apply lookup_insert_eq|].
  split; [apply lookup_delete_eq|].
  split.
  - intros id Hne. apply lookup_delete_ne. congruence.
  - intros k Hne. apply lookup_insert_ne. congruence.
Qed.

Lemma unload_removes_only_this_entry_witness :
  let stored : gmap string (gmap string PyVal) :=
    {[ "entry-1" := entry_data Sample.entry; "entry-2" := ∅ ]} in
  let w := mkWorld {[ "miheater" := stored ]} [] in
  let '(r, w') := Integration.async_unload_entry (fun _ _ => mret true)
                    Sample.const30 Sample.entry Sample.env_up w in
  r = Ok true /\
  trace w' = trace w /\
  exists d' : gmap string (gmap string PyVal),
    hass_data w' !! "miheater" = Some d' /\
    d' !! "entry-1" = None /\
    (forall id, id <> "entry-1" -> d' !! id = stored !! id) /\
    (forall k, k <> "miheater" -> hass_data w' !! k = hass_data w !! k).
Proof.
  apply (unload_removes_only_this_entry (fun _ _ => mret true)
           Sample.const30 Sample.entry Sample.env_up
           (mkWorld {[ "miheater" :=
                         {[ "entry-1" := entry_data Sample.entry; "entry-2" := ∅ ]} ]} [])
           (mkWorld {[ "miheater" :=
                         {[ "entry-1" := entry_data Sample.entry; "entry-2" := ∅ ]} ]} [])
           {[ "entry-1" := entry_data Sample.entry; "entry-2" := ∅ ]});
    reflexivity.
Defined.

(** X5: when the host reports the platforms unloaded but [hass.data] has no
    [DOMAIN] key, [async_unload_entry] raises [KeyError] instead of
    returning, and changes nothing. *)
Theorem unload_without_domain_raises_KeyError
    (up : ConfigEntry -> list Platform -> M bool)
    (c : Const) (entry : ConfigEntry) (env : Env) (w w1 : World) :
  up entry [CLIMATE] env w = (Ok true, w1) ->
  hass_data w1 !! DOMAIN c = None ->
  Integration.async_unload_entry up c entry env w
  = (Raise (PyException "KeyError" (DOMAIN c)), w1).
Proof.
  intros Hup Hd. rewrite integration_unload_run, Hup, Hd. reflexivity.
Qed.

Lemma unload_without_domain_raises_KeyError_witness :
  Integration.async_unload_entry (fun _ _ => mret true)
    Sample.const30 Sample.entry Sample.env_up Sample.world0
  = (Raise (PyException "KeyError" "miheater"), Sample.world0).
Proof.
  apply (unload_without_domain_raises_KeyError (fun _ _ => mret true)
           Sample.const30 Sample.entry Sample.env_up Sample.world0 Sample.world0);
    reflexivity.
Defined.

(** X6: unless the host reports the platforms unloaded, [async_unload_entry]
    touches nothing: when the host answers [False] or raises, the result is
    the host's and the world is exactly as the host left it, so the entry's
    data stays in [hass.data]. *)
Theorem unload_refused_keeps_entry_data
    (up : ConfigEntry -> list Platform -> M bool)
    (c : Const) (entry : ConfigEntry) (env : Env) (w w1 : World) (r : Res bool) :
  up entry [CLIMATE] env w = (r, w1) ->
  r <> Ok true ->
  Integration.async_unload_entry up c entry env w = (r, w1).
Proof.
  intros Hup Hr. rewrite integration_unload_run, Hup.
  destruct r as [[|]|e]; [contradiction|reflexivity|reflexivity].
Qed.

Lemma unload_refused_keeps_entry_data_witness :
  let w := mkWorld {[ "miheater" := {[ "entry-1" := entry_data Sample.entry ]} ]} [] in
  Integration.async_unload_entry (fun _ _ => mret false)
    Sample.const30 Sample.entry Sample.env_up w
  = (Ok false, w).
Proof.
  apply (unload_refused_keeps_entry_data (fun _ _ => mret false)
           Sample.const30 Sample.entry Sample.env_up
           (mkWorld {[ "miheater" := {[ "entry-1" := entry_data Sample.entry ]} ]} [])
           (mkWorld {[ "miheater" := {[ "entry-1" := entry_data Sample.entry ]} ]} [])
           (Ok false));
    [reflexivity | discriminate].
Defined.

(** X7: setup followed by unload.  Take any run of [async_setup_entry] and
    then an [async_unload_entry] for which the host reports the platforms
    unloaded without writing to [hass.data].  The unload returns [True],
    and [hass.data] is what it was before the setup, except that
    [hass.data[DOMAIN]] now exists and has no data for this entry.  When
    the domain was already there without this entry, [hass.data] is
    restored exactly. *)
Theorem setup_then_unload_restores_hass_data
    (up : ConfigEntry -> list Platform -> M bool)
    (c : Const) (entry : ConfigEntry) (env : Env) (w w1 w2 : World)
    (r : Res bool) :
  Integration.async_setup_entry c entry env w = (r, w1) ->
  up entry [CLIMATE] env w1 = (Ok true, w2) ->
  hass_data w2 = hass_data w1 ->
  exists w3,
    Integration.async_unload_entry up c entry env w1 = (Ok true, w3) /\
    hass_data w3
    = <[DOMAIN c := delete (entry_id entry) (default ∅ (hass_data w !! DOMAIN c))]>
        (hass_data w) /\
    (forall d, hass_data w !! DOMAIN c = Some d -> d !! entry_id entry = None ->
               hass_data w3 = hass_data w).
Proof.
  intros Hsetup Hup Hkeep.
  assert (Hh1 : hass_data w1
                = <[DOMAIN c := <[entry_id entry := entry_data entry]>
                                  (default ∅ (hass_data w !! DOMAIN c))]> (hass_data w)).
  { rewrite integration_setup_run in Hsetup.
    destruct (device_status env _ (trace w)) as [e|s];
      [destruct (is_DeviceException e || is_OSError e)
      |destruct (host_forward_entry_setups env entry [CLIMATE] _) as [e|[]]];
      inversion Hsetup; reflexivity. }
  rewrite integration_unload_run, Hup, Hkeep, Hh1.
  rewrite lookup_insert_eq. eexists. split; [reflexivity|]. simpl.
  rewrite insert_insert_eq, delete_insert_eq.
  split; [reflexivity|].
  intros d Hd Hfresh. rewrite Hd. simpl.
  rewrite delete_id by exact Hfresh. apply insert_id. exact Hd.
Qed.

Lemma setup_then_unload_restores_hass_data_witness :
  let up : ConfigEntry -> list Platform -> M bool := fun _ _ => mret true in
  let w := mkWorld {[ "miheater" := {[ "entry-2" := ∅ ]} ]} [] in
  let w1 := snd (Integration.async_setup_entry Sample.const30 Sample.entry
                   Sample.env_up w) in
  exists w3,
    Integration.async_unload_entry up Sample.const30 Sample.entry Sample.env_up w1
    = (Ok true, w3) /\
    hass_data w3
    = <["miheater" := delete "entry-1" (default ∅ (hass_data w !! "miheater"))]>
        (hass_data w) /\
    (forall d, hass_data w !! "miheater" = Some d -> d !! "entry-1" = None ->
               hass_data w3 = hass_data w).
Proof.
  apply (setup_then_unload_restores_hass_data (fun _ _ => mret true)
           Sample.const30 Sample.entry Sample.env_up
           (mkWorld {[ "miheater" := {[ "entry-2" := ∅ ]} ]} [])
           (snd (Integration.async_setup_entry Sample.const30 Sample.entry
                   Sample.env_up (mkWorld {[ "miheater" := {[ "entry-2" := ∅ ]} ]} [])))
           (snd (Integration.async_setup_entry Sample.const30 Sample.entry
                   Sample.env_up (mkWorld {[ "miheater" := {[ "entry-2" := ∅ ]} ]} [])))
           (Ok true));
    reflexivity.
Defined.

(** ** The poll hook *)

(** X8: [_async_update_data] makes exactly one [status] call and writes
    nothing else.  It returns the status the device returned.  A
    [DeviceException] becomes an [UpdateFailed] whose message is
    "Error fetching data: " followed by the text of the error and whose
    cause is the error; every other exception, an [OSError] included,
    leaves the hook as it is. *)
Theorem update_hook_wraps_only_DeviceException
    (self : MiHeaterDataUpdateCoordinator) (env : Env) (w : World) :
  let '(r, w') := Climate._async_update_data self env w in
  since w w' = [EvDevice (device self) CallStatus] /\
  hass_data w' = hass_data w /\
  match device_status env (device self) (trace w) with
  | inr s => r = Ok s
  | inl (DeviceException msg) =>
      r = Raise (UpdateFailed ("Error fetching data: " ++ msg) (DeviceException msg))
  | inl e => r = Raise e
  end.
Proof.
  rewrite _async_update_data_run.
  destruct (device_status env (device self) (trace w)) as [e|s];
    rewrite since_record; [destruct e|]; simpl; auto.
Qed.

(** ** Modes and state properties of the entity *)

(** X9: a mode the entity reports is one of the modes it advertises. *)
Theorem reported_hvac_mode_is_advertised (self : MiHeaterClimate) (mode : HVACMode) :
  Climate.hvac_mode self = Ok mode -> In mode Climate._attr_hvac_modes.
Proof.
  unfold Climate.hvac_mode, Climate.data_attr.
  destruct (data (coordinator self)) as [d|]; [|discriminate].
  destruct (is_on d); intros [= <-]; simpl; auto.
Qed.

Lemma reported_hvac_mode_is_advertised_witness :
  In OFF Climate._attr_hvac_modes.
Proof.
  apply (reported_hvac_mode_is_advertised
           (mkClimate (mkCoordinator Sample.heater "Mi Heater Data Update"
                                     (Timedelta 30) (Some Sample.idle_at_18) None true)
                      "Mi Heater" "entry-1") OFF).
  reflexivity.
Defined.

(** X10: [async_set_hvac_mode] acts on exactly the advertised modes: it
    calls the device if and only if the mode is in [_attr_hvac_modes], and
    it logs the "Unsupported HVAC mode" error if and only if the mode is
    not. *)
Theorem set_hvac_mode_acts_on_advertised_modes
    (self : MiHeaterClimate) (mode : HVACMode) (env : Env) (w : World) :
  let '(_, w') := Climate.async_set_hvac_mode self mode env w in
  (In mode Climate._attr_hvac_modes <-> device_calls (since w w') <> []) /\
  (~ In mode Climate._attr_hvac_modes <->
   since w w' = [EvLog ERROR "Unsupported HVAC mode: %s" [ArgMode mode]]).
Proof.
  destruct (decide (mode = HEAT \/ mode = OFF)) as [Hmode|Hmode].
  - rewrite async_set_hvac_mode_run by exact Hmode.
    assert (Hin : In mode Climate._attr_hvac_modes)
      by (destruct Hmode as [-> | ->]; simpl; auto).
    destruct (power_reply env _ mode (trace w)) as [e|[]];
      rewrite since_app; simpl; (split; split; try discriminate; try tauto).
  - assert (Hout : ~ In mode Climate._attr_hvac_modes)
      by (simpl; intros [<- | [<- | []]]; apply Hmode; auto).
    unfold Climate.async_set_hvac_mode.
    destruct (decide (mode = HEAT)) as [?|_]; [tauto|].
    destruct (decide (mode = OFF)) as [?|_]; [tauto|].
    unfold _LOGGER_error, notify. rewrite since_record.
    split; split.
    + intros Hin. contradiction.
    + intros Hcalls. contradiction Hcalls. reflexivity.
    + reflexivity.
    + intros _. exact Hout.
Qed.

(** X11: [async_set_temperature] reads nothing of its keyword arguments but
    the temperature: two calls whose dictionaries agree on that key run
    alike, whatever else they carry. *)
Theorem set_temperature_ignores_other_kwargs
    (self : MiHeaterClimate) (kwargs kwargs' : gmap string PyVal)
    (env : Env) (w : World) :
  dict_get kwargs ATTR_TEMPERATURE = dict_get kwargs' ATTR_TEMPERATURE ->
  Climate.async_set_temperature self kwargs env w
  = Climate.async_set_temperature self kwargs' env w.
Proof.
  intros Heq. unfold Climate.async_set_temperature. rewrite Heq. reflexivity.
Qed.

Lemma set_temperature_ignores_other_kwargs_witness :
  Climate.async_set_temperature Sample.entity
    {[ ATTR_TEMPERATURE := PyInt 21; "hvac_mode" := PyStr "off" ]}
    Sample.env_up Sample.world0
  = Climate.async_set_temperature Sample.entity
      {[ ATTR_TEMPERATURE := PyInt 21 ]} Sample.env_up Sample.world0.
Proof.
  apply (set_temperature_ignores_other_kwargs Sample.entity
           {[ ATTR_TEMPERATURE := PyInt 21; "hvac_mode" := PyStr "off" ]}
           {[ ATTR_TEMPERATURE := PyInt 21 ]} Sample.env_up Sample.world0).
  reflexivity.
Defined.

(** What the entity reads when its coordinator holds the status [s]. *)
Lemma properties_of_data (entity : MiHeaterClimate)
    (self : MiHeaterDataUpdateCoordinator) (s : HeaterStatus) :
  data self = Some s ->
  Climate.hvac_mode (observe entity self) = Ok (if is_on s then HEAT else OFF) /\
  Climate.current_temperature (observe entity self) = Ok (temperature s) /\
  Climate.target_temperature (observe entity self) = Ok (target_temperature s).
Proof.
  intros Hd.
  unfold Climate.hvac_mode, Climate.current_temperature,
    Climate.target_temperature, Climate.data_attr, observe. simpl.
  rewrite Hd. destruct (is_on s); auto.
Qed.

Lemma readable_of_data (entity : MiHeaterClimate)
    (self : MiHeaterDataUpdateCoordinator) :
  data self <> None -> readable (observe entity self).
Proof.
  destruct (data self) as [s|] eqn:Hd; [intros _|congruence].
  destruct (properties_of_data entity self s Hd) as (Hm & Hc & Ht).
  unfold readable. do 3 eexists. repeat split; eassumption.
Qed.

(** ** Platform setup *)

Section Platform.

Variable base : DataUpdateCoordinator.
Hypothesis first_ok : first_refresh_contract base.

(** X12: when the device answers the first refresh with the status [s],
    the platform setup returns normally and registers, right after the
    refresh and with [update_before_add] set, exactly one entity: its
    unique id is the entry id, its name is "Mi Heater", its coordinator
    talks to [MiHeater(host, token)] of the entry data, and its state
    properties read [s]. *)
Theorem platform_setup_registers_entity
    (c : Const) (entry : ConfigEntry) (env : Env) (w : World) (s : HeaterStatus) :
  let dev := mkDevice MiHeater (dict_get (entry_data entry) "host")
                      (dict_get (entry_data entry) "token") in
  device_status env dev (trace w) = inr s ->
  exists self' w2 entity,
    async_config_entry_first_refresh base Climate._async_update_data
      (Climate.coordinator_for_entry c entry) env w = (Ok tt, self', w2) /\
    Climate.async_setup_entry base c entry env w
    = (Ok tt, record_event (EvAddEntities [entity] true) w2) /\
    Climate.unique_id entity = entry_id entry /\
    Climate.name entity = "Mi Heater" /\
    device (coordinator entity) = dev /\
    Climate.hvac_mode entity = Ok (if is_on s then HEAT else OFF) /\
    Climate.current_temperature entity = Ok (temperature s) /\
    Climate.target_temperature entity = Ok (target_temperature s).
Proof.
  intros dev Hok.
  pose proof (_async_update_data_run (Climate.coordinator_for_entry c entry) env w)
    as Hhook.
  change (device (Climate.coordinator_for_entry c entry)) with dev in Hhook.
  rewrite Hok in Hhook.
  destruct (first_refresh_stores_data base first_ok _ _ _ _ _ _ Hhook)
    as (self' & w2 & Hrun & Hd & Hdev).
  exists self', w2, (mkClimate self' "Mi Heater" (entry_id entry)).
  split; [exact Hrun|].
  split; [unfold Climate.async_setup_entry; rewrite Hrun; reflexivity|].
  split; [reflexivity|]. split; [reflexivity|].
  split; [exact Hdev|].
  exact (properties_of_data (mkClimate self' "Mi Heater" (entry_id entry)) self' s Hd).
Qed.

(** X13: when the device does not answer the first refresh, the platform
    setup raises what the refresh raised and stops there: the world is as
    the refresh left it, and no entity is registered. *)
Theorem platform_setup_fails_without_entity
    (c : Const) (entry : ConfigEntry) (env : Env) (w : World) (e : Exn) :
  let dev := mkDevice MiHeater (dict_get (entry_data entry) "host")
                      (dict_get (entry_data entry) "token") in
  device_status env dev (trace w) = inl e ->
  exists e' self' w2,
    async_config_entry_first_refresh base Climate._async_update_data
      (Climate.coordinator_for_entry c entry) env w = (Raise e', self', w2) /\
    Climate.async_setup_entry base c entry env w = (Raise e', w2).
Proof.
  intros dev Hfail.
  pose proof (_async_update_data_run (Climate.coordinator_for_entry c entry) env w)
    as Hhook.
  change (device (Climate.coordinator_for_entry c entry)) with dev in Hhook.
  rewrite Hfail in Hhook.
  destruct (first_refresh_raises base first_ok _ _ _ _ _ _ Hhook)
    as (e' & self' & w2 & Hrun).
  exists e', self', w2. split; [exact Hrun|].
  unfold Climate.async_setup_entry. rewrite Hrun. reflexivity.
Qed.

Hypothesis refresh_ok : refresh_data_contract base.

(** X14: an entity that the platform setup registered can always be read.
    Whenever the setup returned normally, it ended by registering one
    entity, and after any number of later polls, failing or not, the
    [hvac_mode], [current_temperature] and [target_temperature] of that
    entity return a value instead of raising [AttributeError]. *)
Theorem registered_entity_stays_readable
    (c : Const) (entry : ConfigEntry) (env : Env) (w w1 : World) :
  Climate.async_setup_entry base c entry env w = (Ok tt, w1) ->
  exists entity w2,
    w1 = record_event (EvAddEntities [entity] true) w2 /\
    forall n env' w',
      readable (observe entity
                  (fst (steady_state base n (coordinator entity) env' w'))).
Proof.
  intros Hsetup.
  destruct (Climate._async_update_data (Climate.coordinator_for_entry c entry) env w)
    as [[s|e] w0] eqn:Hhook.
  - destruct (first_refresh_stores_data base first_ok _ _ _ _ _ _ Hhook)
      as (self' & w2 & Hrun & Hd & _).
    unfold Climate.async_setup_entry in Hsetup. rewrite Hrun in Hsetup.
    unfold Climate.async_add_entities, notify in Hsetup.
    inversion Hsetup as [Hw1].
    exists (mkClimate self' "Mi Heater" (entry_id entry)), w2.
    split; [reflexivity|].
    intros n env' w'. apply readable_of_data.
    apply (steady_state_keeps_some_data base refresh_ok). simpl.
    rewrite Hd. discriminate.
  - destruct (first_refresh_raises base first_ok _ _ _ _ _ _ Hhook)
      as (e' & self' & w2 & Hrun).
    unfold Climate.async_setup_entry in Hsetup. rewrite Hrun in Hsetup.
    discriminate.
Qed.

(** X15: the entity shows the status of the most recent successful fetch.
    After a poll whose fetch returned [s] its state properties read [s];
    after a poll whose fetch failed they read what they read before. *)
Theorem entity_reads_latest_successful_fetch
    (entity : MiHeaterClimate) (env : Env) (w : World) (s0 : HeaterStatus) :
  data (coordinator entity) = Some s0 ->
  let '(_, self', _) :=
    _async_refresh base Climate._async_update_data (coordinator entity) env w in
  let shown :=
    match device_status env (device (coordinator entity)) (trace w) with
    | inr s => s
    | inl _ => s0
    end in
  Climate.hvac_mode (observe entity self') = Ok (if is_on shown then HEAT else OFF) /\
  Climate.current_temperature (observe entity self') = Ok (temperature shown) /\
  Climate.target_temperature (observe entity self')
  = Ok (target_temperature shown).
Proof.
  intros Hd0.
  pose proof (_async_update_data_run (coordinator entity) env w) as Hhook.
  pose proof (refresh_stores_data base refresh_ok Climate._async_update_data
                (coordinator entity) env w) as Hstore.
  pose proof (refresh_keeps_data base refresh_ok Climate._async_update_data
                (coordinator entity) env w) as Hkeep.
  unfold refreshed in Hstore, Hkeep.
  destruct (_async_refresh base Climate._async_update_data (coordinator entity) env w)
    as [[r self'] w2]. simpl in Hstore, Hkeep.
  destruct (device_status env (device (coordinator entity)) (trace w)) as [e|s].
  - apply properties_of_data. rewrite (Hkeep _ _ Hhook). exact Hd0.
  - apply properties_of_data. exact (Hstore _ _ Hhook).
Qed.

End Platform.

Lemma plain_base_first_refresh_contract : first_refresh_contract plain_base.
Proof.
  split; intros hook self env w ? w1 Hhook; simpl; rewrite Hhook; eauto.
Qed.

Lemma platform_setup_registers_entity_witness :
  exists self' w2 entity,
    async_config_entry_first_refresh plain_base Climate._async_update_data
      (Climate.coordinator_for_entry Sample.const30 Sample.entry)
      Sample.env_up Sample.world0 = (Ok tt, self', w2) /\
    Climate.async_setup_entry plain_base Sample.const30 Sample.entry
      Sample.env_up Sample.world0
    = (Ok tt, record_event (EvAddEntities [entity] true) w2) /\
    Climate.unique_id entity = "entry-1" /\
    Climate.name entity = "Mi Heater" /\
    device (coordinator entity) = Sample.heater /\
    Climate.hvac_mode entity = Ok OFF /\
    Climate.current_temperature entity = Ok 18%Q /\
    Climate.target_temperature entity = Ok 20%Q.
Proof.
  apply (platform_setup_registers_entity plain_base plain_base_first_refresh_contract
           Sample.const30 Sample.entry Sample.env_up Sample.world0 Sample.idle_at_18).
  reflexivity.
Defined.

Lemma platform_setup_fails_without_entity_witness :
  exists e' self' w2,
    async_config_entry_first_refresh plain_base Climate._async_update_data
      (Climate.coordinator_for_entry Sample.const30 Sample.entry)
      Sample.env_down Sample.world0 = (Raise e', self', w2) /\
    Climate.async_setup_entry plain_base Sample.const30 Sample.entry
      Sample.env_down Sample.world0 = (Raise e', w2).
Proof.
  apply (platform_setup_fails_without_entity plain_base
           plain_base_first_refresh_contract
           Sample.const30 Sample.entry Sample.env_down Sample.world0
           Sample.unreachable).
  reflexivity.
Defined.

Lemma registered_entity_stays_readable_witness :
  let w1 := snd (Climate.async_setup_entry plain_base Sample.const30 Sample.entry
                   Sample.env_up Sample.world0) in
  exists entity w2,
    w1 = record_event (EvAddEntities [entity] true) w2 /\
    forall n env' w',
      readable (observe entity
                  (fst (steady_state plain_base n (coordinator entity) env' w'))).
Proof.
  apply (registered_entity_stays_readable plain_base
           plain_base_first_refresh_contract plain_base_data_contract
           Sample.const30 Sample.entry Sample.env_up Sample.world0
           (snd (Climate.async_setup_entry plain_base Sample.const30 Sample.entry
                   Sample.env_up Sample.world0))).
  reflexivity.
Defined.

Lemma entity_reads_latest_successful_fetch_witness :
  let entity :=
    mkClimate (mkCoordinator Sample.heater "Mi Heater Data Update" (Timedelta 30)
                             (Some Sample.idle_at_18) None true)
              "Mi Heater" "entry-1" in
  let '(_, self', _) :=
    _async_refresh plain_base Climate._async_update_data (coordinator entity)
                   Sample.env_down Sample.world0 in
  Climate.hvac_mode (observe entity self') = Ok OFF /\
  Climate.current_temperature (observe entity self') = Ok 18%Q /\
  Climate.target_temperature (observe entity self') = Ok 20%Q.
Proof.
  apply (entity_reads_latest_successful_fetch plain_base plain_base_data_contract
           (mkClimate (mkCoordinator Sample.heater "Mi Heater Data Update"
                                     (Timedelta 30) (Some Sample.idle_at_18) None true)
                      "Mi Heater" "entry-1")
           Sample.env_down Sample.world0 Sample.idle_at_18).
  reflexivity.
Defined.

(** ** Sequences of write commands *)

Lemma world_eta (w : World) : w = mkWorld (hass_data w) (trace w ++ []).
Proof. destruct w. simpl. rewrite app_nil_r. reflexivity. Qed.

(** One write command: [hass.data] is left alone, the trace grows by at
    most one device call, and by a refresh request only with one. *)
Lemma run_command_effect (self : MiHeaterClimate) (cmd : Command)
    (env : Env) (w : World) :
  exists l,
    snd (run_command self cmd env w) = mkWorld (hass_data w) (trace w ++ l) /\
    length (refresh_requests l) <= length (device_calls l) /\
    length (device_calls l) <= 1.
Proof.
  destruct cmd as [kwargs|mode]; simpl.
  - destruct (is_not_None (dict_get kwargs ATTR_TEMPERATURE)) eqn:Hn.
    + rewrite async_set_temperature_run by exact Hn.
      destruct (device_set_target_temperature env _ _ (trace w)) as [e|[]];
        eexists; (split; [reflexivity|]); simpl; lia.
    + unfold Climate.async_set_temperature. rewrite Hn. simpl.
      exists []. split; [apply world_eta|]. simpl. lia.
  - destruct (decide (mode = HEAT \/ mode = OFF)) as [Hmode|Hmode].
    + rewrite async_set_hvac_mode_run by exact Hmode.
      destruct (power_reply env _ mode (trace w)) as [e|[]];
        eexists; (split; [reflexivity|]); simpl; lia.
    + unfold Climate.async_set_hvac_mode.
      destruct (decide (mode = HEAT)) as [?|_]; [tauto|].
      destruct (decide (mode = OFF)) as [?|_]; [tauto|].
      eexists. split; [reflexivity|]. simpl. lia.
Qed.

Lemma run_commands_effect (self : MiHeaterClimate) (cmds : list Command)
    (env : Env) : forall w : World,
  exists l,
    run_commands self cmds env w = mkWorld (hass_data w) (trace w ++ l) /\
    length (refresh_requests l) <= length (device_calls l) /\
    length (device_calls l) <= length cmds.
Proof.
  induction cmds as [|cmd rest IH]; intros w; simpl.
  - exists []. split; [apply world_eta|]. simpl. lia.
  - destruct (run_command_effect self cmd env w) as (l1 & -> & Hr1 & Hc1).
    destruct (IH (mkWorld (hass_data w) (trace w ++ l1))) as (l2 & -> & Hr2 & Hc2).
    exists (l1 ++ l2)%list. simpl. rewrite <- app_assoc.
    split; [reflexivity|].
    unfold refresh_requests, device_calls in *.
    rewrite !List.filter_app, !length_app. lia.
Qed.

(** X16: in any sequence of write commands, each command contacts the
    device at most once and a refresh is requested only after a device
    call: the refresh requests are never more than the device calls, the
    device calls never more than the commands, and [hass.data] is left as
    it was. *)
Theorem write_commands_never_refresh_without_device_call
    (self : MiHeaterClimate) (cmds : list Command) (env : Env) (w : World) :
  let w' := run_commands self cmds env w in
  hass_data w' = hass_data w /\
  length (refresh_requests (since w w')) <= length (device_calls (since w w')) /\
  length (device_calls (since w w')) <= length cmds.
Proof.
  destruct (run_commands_effect self cmds env w) as (l & Hrun & Hr & Hc).
  simpl. rewrite Hrun, since_app. simpl. auto.
Qed.
